(** * The KogitoRuntime reconciler: control loop and event admission

    A shallow embedding of [controllers/kogitoruntime_controller.go]:
    [Reconcile], [setupRBAC] and the watch predicate built by
    [SetupWithManager].  The cluster is an explicit state that the
    collaborators (fetch, idempotent create, mount propagation, the
    deployer) transform; every call is recorded in a trace together
    with the cluster state before and after it. *)

From Stdlib Require Import List String ZArith Bool Lia.
Import ListNotations.
Local Open Scope string_scope.
Local Open Scope list_scope.
Local Open Scope Z_scope.

(** ** Data model *)

(** [ctrl.Request]: the (name, namespace) key of a pass. *)
Record Request := mkRequest { Name : string; Namespace : string }.

(** [time.Duration] is a 64-bit count of nanoseconds; the controller only
    compares it with zero and copies it, so it is kept as an integer. *)
Definition Duration := Z.

(** [ctrl.Result]. *)
Record Result := mkResult { Requeue : bool; RequeueAfter : Duration }.

(** The zero value of [ctrl.Result], which the named result holds until
    it is assigned. *)
Definition zeroResult : Result := mkResult false 0.

(** [v1beta1.RuntimeType] is a string type. *)
Definition RuntimeType := string.

(** Modelled from the spec: the type [services.HealthCheckProbeType] is
    declared outside this file; the spec names two probe variants, a
    framework-specific one and a raw TCP one. *)
Inductive HealthCheckProbeType := QuarkusHealthCheckProbe | TCPHealthCheckProbe.

(** The three behaviours injected in the service definition.  Only their
    identity matters to the loop, which never calls them. *)
Inductive Hook := onDeploymentCreate | onObjectsCreate | onGetComparators.

(** [services.ServiceDefinition], with the fields the controller sets; the
    field [Request] is written [Request_], the name being taken by its type. *)
Record ServiceDefinition := mkServiceDefinition {
  Request_ : Request;
  DefaultImageTag : string;
  SingleReplica : bool;
  OnDeploymentCreate : Hook;
  OnObjectsCreate : Hook;
  OnGetComparators : Hook;
  CustomService : bool;
  HealthCheckProbe : HealthCheckProbeType
}.

Inductive LogLevel := LInfo | LDebug | LError.

(** ** Watch events and the admission predicate *)

(** [metav1.Time] wraps a [time.Time]; [IsZero] on the wrapped value holds
    when both the seconds and the nanoseconds are zero. *)
Record Time := mkTime { sec : Z; nsec : Z }.

Definition Time_IsZero (t : Time) : bool := (sec t =? 0) && (nsec t =? 0).

(** [IsZero] on a pointer to [metav1.Time]: a nil pointer is zero. *)
Definition IsZero (t : option Time) : bool :=
  match t with
  | None => true
  | Some t => Time_IsZero t
  end.

(** The object metadata an event carries, as far as the predicate reads it. *)
Record ObjectMeta := mkObjectMeta {
  metaName : string;
  metaNamespace : string;
  DeletionTimestamp : option Time
}.

Definition GetDeletionTimestamp (m : ObjectMeta) : option Time := DeletionTimestamp m.

Record CreateEvent := mkCreateEvent { CreateMeta : ObjectMeta }.
Record DeleteEvent := mkDeleteEvent { DeleteMeta : ObjectMeta; DeleteStateUnknown : bool }.
Record UpdateEvent := mkUpdateEvent { MetaOld : ObjectMeta; MetaNew : ObjectMeta }.
Record GenericEvent := mkGenericEvent { GenericMeta : ObjectMeta }.

(** controller-runtime's [predicate.Funcs]: four optional functions. *)
Record Funcs := mkFuncs {
  CreateFunc : option (CreateEvent -> bool);
  DeleteFunc : option (DeleteEvent -> bool);
  UpdateFunc : option (UpdateEvent -> bool);
  GenericFunc : option (GenericEvent -> bool)
}.

(** The methods of [predicate.Funcs]: a function that is left nil admits
    the event. *)
Definition Funcs_Create (p : Funcs) (e : CreateEvent) : bool :=
  match CreateFunc p with Some f => f e | None => true end.
Definition Funcs_Delete (p : Funcs) (e : DeleteEvent) : bool :=
  match DeleteFunc p with Some f => f e | None => true end.
Definition Funcs_Update (p : Funcs) (e : UpdateEvent) : bool :=
  match UpdateFunc p with Some f => f e | None => true end.
Definition Funcs_Generic (p : Funcs) (e : GenericEvent) : bool :=
  match GenericFunc p with Some f => f e | None => true end.

(** The predicate literal of [SetupWithManager]: only [DeleteFunc] and
    [UpdateFunc] are set. *)
Definition pred : Funcs :=
  {| CreateFunc := None;
     DeleteFunc := Some (fun _ => false);
     UpdateFunc := Some (fun e => IsZero (GetDeletionTimestamp (MetaNew e)));
     GenericFunc := None |}.

(** A notification of the KogitoRuntime watch. *)
Inductive WatchEvent :=
| OnCreate (e : CreateEvent)
| OnUpdate (e : UpdateEvent)
| OnDelete (e : DeleteEvent)
| OnGeneric (e : GenericEvent).

(** The watch registered with [builder.WithPredicates(pred)] hands an event
    to the queue when the predicate's method for its kind returns true. *)
Definition triggers (p : Funcs) (ev : WatchEvent) : bool :=
  match ev with
  | OnCreate e => Funcs_Create p e
  | OnUpdate e => Funcs_Update p e
  | OnDelete e => Funcs_Delete p e
  | OnGeneric e => Funcs_Generic p e
  end.

(** ** The reconcile pass *)

(** What the pass needs from the code outside this file: the cluster
    behind the client handle, the Go [error] values, the fetched
    [*v1beta1.KogitoRuntime], the objects handed to [CreateIfNotExists],
    and the collaborators as transformers of the cluster state. *)
Class Cluster := {
  World : Type;
  error : Type;
  KogitoRuntime : Type;
  Object : Type;
  (** [instance.Name] and [instance.GetSpec().GetRuntime()] *)
  instanceName : KogitoRuntime -> string;
  GetRuntime : KogitoRuntime -> RuntimeType;
  (** constants of other packages *)
  QuarkusRuntimeType : RuntimeType;
  LatestTag : string;
  (** the constructors of the service-viewer objects *)
  getServiceViewerRole : string -> Object;
  getServiceViewerServiceAccount : string -> Object;
  getServiceViewerRoleBinding : string -> Object;
  (** the collaborators *)
  fetchKogitoRuntimeService :
    string -> string -> World -> (option KogitoRuntime * option error) * World;
  createIfNotExists : Object -> World -> option error * World;
  mountProtoBufConfigMapOnDataIndex :
    KogitoRuntime -> World -> option error * World;
  deploy :
    ServiceDefinition -> KogitoRuntime -> World -> (Duration * option error) * World
}.

Section Controller.

Context {C : Cluster}.

(** *** Trace of a pass *)

(** One call of the pass, with what it returned. *)
Inductive Action :=
| ALog (lvl : LogLevel) (err : option error) (msg : string) (kvs : list string)
| AFetch (name namespace : string) (r : option KogitoRuntime * option error)
| ACreateIfNotExists (o : Object) (r : option error)
| AMount (instance : KogitoRuntime) (r : option error)
| ADeploy (definition : ServiceDefinition) (instance : KogitoRuntime)
          (r : Duration * option error).

(** A call with the cluster state it found and the one it left. *)
Record Event := mkEvent { action : Action; pre : World; post : World }.

(** The error a collaborator call returned; logging returns nothing. *)
Definition action_err (a : Action) : option error :=
  match a with
  | ALog _ _ _ _ => None
  | AFetch _ _ r => snd r
  | ACreateIfNotExists _ r => r
  | AMount _ r => r
  | ADeploy _ _ r => snd r
  end.

Definition is_log (ev : Event) : bool :=
  match action ev with ALog _ _ _ _ => true | _ => false end.

Definition is_create (ev : Event) : bool :=
  match action ev with ACreateIfNotExists _ _ => true | _ => false end.

(** *** The monad of a pass: cluster state and trace *)

Definition M (A : Type) : Type := World -> A * World * list Event.

Definition ret {A} (a : A) : M A := fun w => (a, w, []).

Definition bind {A B} (m : M A) (f : A -> M B) : M B :=
  fun w =>
    let '(a, w1, t1) := m w in
    let '(b, w2, t2) := f a w1 in
    (b, w2, t1 ++ t2).

Notation "x <- m ;; k" := (bind m (fun x => k))
  (at level 61, m at next level, right associativity).
Notation "m ;;; k" := (bind m (fun _ => k))
  (at level 61, right associativity).

Definition Log (lvl : LogLevel) (err : option error) (msg : string)
           (kvs : list string) : M unit :=
  fun w => (tt, w, [mkEvent (ALog lvl err msg kvs) w w]).

Definition FetchKogitoRuntimeService (name namespace : string)
  : M (option KogitoRuntime * option error) :=
  fun w =>
    let '(r, w') := fetchKogitoRuntimeService name namespace w in
    (r, w', [mkEvent (AFetch name namespace r) w w']).

Definition CreateIfNotExists (o : Object) : M (option error) :=
  fun w =>
    let '(r, w') := createIfNotExists o w in
    (r, w', [mkEvent (ACreateIfNotExists o r) w w']).

Definition MountProtoBufConfigMapOnDataIndex (instance : KogitoRuntime)
  : M (option error) :=
  fun w =>
    let '(r, w') := mountProtoBufConfigMapOnDataIndex instance w in
    (r, w', [mkEvent (AMount instance r) w w']).

Definition Deploy (definition : ServiceDefinition) (instance : KogitoRuntime)
  : M (Duration * option error) :=
  fun w =>
    let '(r, w') := deploy definition instance w in
    (r, w', [mkEvent (ADeploy definition instance r) w w']).

(** *** setupRBAC *)

Definition setupRBAC (namespace : string) : M (option error) :=
  err <- CreateIfNotExists (getServiceViewerRole namespace) ;;
  match err with
  | Some e => Log LError (Some e) "Fail to create role for service viewer" [] ;;; ret err
  | None =>
  err <- CreateIfNotExists (getServiceViewerServiceAccount namespace) ;;
  match err with
  | Some e =>
      Log LError (Some e) "Fail to create service account for service viewer" [] ;;; ret err
  | None =>
  err <- CreateIfNotExists (getServiceViewerRoleBinding namespace) ;;
  match err with
  | Some e =>
      Log LError (Some e) "Fail to create role binding for service viewer" [] ;;; ret err
  | None => ret err
  end end end.

(** *** Reconcile *)

(** The probe chosen at lines 80-83. *)
Definition healthCheckProbeType (instance : KogitoRuntime) : HealthCheckProbeType :=
  if String.eqb (GetRuntime instance) QuarkusRuntimeType
  then QuarkusHealthCheckProbe
  else TCPHealthCheckProbe.

(** The service definition built at lines 84-93. *)
Definition serviceDefinition (req : Request) (instance : KogitoRuntime)
  : ServiceDefinition :=
  {| Request_ := req;
     DefaultImageTag := LatestTag;
     SingleReplica := false;
     OnDeploymentCreate := onDeploymentCreate;
     OnObjectsCreate := onObjectsCreate;
     OnGetComparators := onGetComparators;
     CustomService := true;
     HealthCheckProbe := healthCheckProbeType instance |}.

Definition Reconcile (req : Request) : M (Result * option error) :=
  let result := zeroResult in
  Log LInfo None "Reconciling for"
      ["KogitoRuntime"; Name req; "Namespace"; Namespace req] ;;;
  r <- FetchKogitoRuntimeService (Name req) (Namespace req) ;;
  let '(instance, err) := r in
  match err with
  | Some _ => ret (result, err)
  | None =>
  match instance with
  | None =>
      Log LDebug None "Instance not found"
          ["KogitoRuntime"; Name req; "Namespace"; Namespace req] ;;;
      ret (result, err)
  | Some instance =>
  err <- setupRBAC (Namespace req) ;;
  match err with
  | Some _ => ret (result, err)
  | None =>
  err <- MountProtoBufConfigMapOnDataIndex instance ;;
  match err with
  | Some e =>
      Log LError (Some e)
          "Fail to mount Proto Buf config map of Kogito runtime on DataIndex"
          ["Instance"; instanceName instance] ;;;
      ret (result, err)
  | None =>
  let definition := serviceDefinition req instance in
  r <- Deploy definition instance ;;
  let '(requeueAfter, err) := r in
  match err with
  | Some _ => ret (result, err)
  | None =>
  if requeueAfter >? 0 then
    Log LInfo None
        "Waiting for all resources to be created, scheduling for 30 seconds from now" [] ;;;
    ret ({| Requeue := true; RequeueAfter := requeueAfter |}, err)
  else ret (result, err)
  end end end end end.

(** What a pass leaves: the returned pair, the cluster and the trace. *)
Definition Pass : Type := (Result * option error) * World * list Event.

Definition pass_result (p : Pass) : Result := fst (fst (fst p)).
Definition pass_err (p : Pass) : option error := snd (fst (fst p)).
Definition pass_world (p : Pass) : World := snd (fst p).
Definition pass_trace (p : Pass) : list Event := snd p.

(** *** Projections of a trace *)

(** The idempotent-create calls of a trace, in order, each with the error
    it returned. *)
Fixpoint creates (t : list Event) : list (Object * option error) :=
  match t with
  | [] => []
  | ev :: t' =>
      match action ev with
      | ACreateIfNotExists o r => (o, r) :: creates t'
      | _ => creates t'
      end
  end.

(** The calls that can change the cluster: a create of the bootstrap, the
    mount propagation, the delegate. *)
Definition is_write (ev : Event) : bool :=
  match action ev with
  | ACreateIfNotExists _ _ | AMount _ _ | ADeploy _ _ _ => true
  | _ => false
  end.

(** The three bootstrap objects of a namespace, in the order of [setupRBAC]. *)
Definition serviceViewerObjects (namespace : string) : list Object :=
  [getServiceViewerRole namespace;
   getServiceViewerServiceAccount namespace;
   getServiceViewerRoleBinding namespace].

(** *** The idempotence contract of the collaborators *)

(** The calls of a pass that write to the cluster. *)
Inductive Write :=
| WCreate (o : Object)
| WMount (instance : KogitoRuntime)
| WDeploy (definition : ServiceDefinition) (instance : KogitoRuntime).

(** A write as a transformer of the cluster, keeping only its error. *)
Definition perform (c : Write) (w : World) : option error * World :=
  match c with
  | WCreate o => createIfNotExists o w
  | WMount i => mountProtoBufConfigMapOnDataIndex i w
  | WDeploy d i => let '(r, w') := deploy d i w in (snd r, w')
  end.

(** A write is settled in a cluster where it succeeds and changes nothing. *)
Definition settled (c : Write) (w : World) : Prop := perform c w = (None, w).

(** The contract: fetch only reads, and the writes of a pass leave what it
    reads alone; a write that has succeeded is settled; a settled write
    stays settled across the writes of a pass. *)
Record IdempotentCollaborators : Prop := {
  fetch_reads : forall name namespace w,
    snd (fetchKogitoRuntimeService name namespace w) = w;
  fetch_frame : forall name namespace c w,
    fst (fetchKogitoRuntimeService name namespace (snd (perform c w)))
    = fst (fetchKogitoRuntimeService name namespace w);
  perform_idem : forall c w w', perform c w = (None, w') -> settled c w';
  settled_frame : forall c c' w, settled c w -> settled c (snd (perform c' w))
}.

(** The pass reaches the bootstrap step: the fetch returned an instance and
    no error. *)
Definition reaches_bootstrap (req : Request) (w : World) : Prop :=
  exists instance w',
    fetchKogitoRuntimeService (Name req) (Namespace req) w
    = ((Some instance, None), w').

(** Each of the three bootstrap objects is created exactly once in the
    pass, in the order role, service account, role binding. *)
Definition creates_each_once (req : Request) (p : Pass) : Prop :=
  map fst (creates (pass_trace p)) = serviceViewerObjects (Namespace req).

(** A cluster in which a pass for [req] finds nothing to do: the instance
    is absent, or it is there and every write of the pass is settled. *)
Definition pass_settled (req : Request) (w : World) : Prop :=
  fetchKogitoRuntimeService (Name req) (Namespace req) w = ((None, None), w)
  \/ exists instance,
      fetchKogitoRuntimeService (Name req) (Namespace req) w
      = ((Some instance, None), w)
      /\ Forall (fun c => settled c w)
           [WCreate (getServiceViewerRole (Namespace req));
            WCreate (getServiceViewerServiceAccount (Namespace req));
            WCreate (getServiceViewerRoleBinding (Namespace req));
            WMount instance;
            WDeploy (serviceDefinition req instance) instance].

(** An event of a pass that found nothing to do: no error, cluster
    unchanged. *)
Definition noop (ev : Event) : Prop :=
  post ev = pre ev /\ action_err (action ev) = None.

(** *** The calls of a pass, without their outcomes *)

(** A call to a collaborator: which one, and on what. *)
Inductive Call :=
| CFetch (name namespace : string)
| CCreate (o : Object)
| CMount (instance : KogitoRuntime)
| CDeploy (definition : ServiceDefinition) (instance : KogitoRuntime).

Definition call_of (a : Action) : option Call :=
  match a with
  | ALog _ _ _ _ => None
  | AFetch name namespace _ => Some (CFetch name namespace)
  | ACreateIfNotExists o _ => Some (CCreate o)
  | AMount i _ => Some (CMount i)
  | ADeploy d i _ => Some (CDeploy d i)
  end.

(** The collaborator calls of a trace, in order. *)
Fixpoint calls (t : list Event) : list Call :=
  match t with
  | [] => []
  | ev :: t' =>
      match call_of (action ev) with
      | Some c => c :: calls t'
      | None => calls t'
      end
  end.

(** The calls of [Reconcile] and [setupRBAC] in the order of the source,
    for a request and the instance fetched for it. *)
Definition plan (req : Request) (instance : KogitoRuntime) : list Call :=
  [CFetch (Name req) (Namespace req);
   CCreate (getServiceViewerRole (Namespace req));
   CCreate (getServiceViewerServiceAccount (Namespace req));
   CCreate (getServiceViewerRoleBinding (Namespace req));
   CMount instance;
   CDeploy (serviceDefinition req instance) instance].

(** The collaborator calls of a trace with what they returned. *)
Definition steps (t : list Event) : list Action :=
  map action (filter (fun ev => negb (is_log ev)) t).

(** The cluster after [n] passes in a row for the same request. *)
Fixpoint reconcile_n (req : Request) (n : nat) (w : World) : World :=
  match n with
  | O => w
  | S n' => reconcile_n req n' (pass_world (Reconcile req w))
  end.

(** *** Two statements about pairs of passes *)

(** The pass that follows a pass for the same request returns no error,
    leaves the cluster as it found it, and makes only calls that change
    nothing. *)
Definition second_pass_quiet (req : Request) (w : World) : Prop :=
  let p1 := Reconcile req w in
  let p2 := Reconcile req (pass_world p1) in
  pass_err p2 = None
  /\ pass_world p2 = pass_world p1
  /\ Forall noop (pass_trace p2).

(** Two passes create the same objects, in the same order. *)
Definition same_creates (req1 : Request) (w1 : World)
    (req2 : Request) (w2 : World) : Prop :=
  map fst (creates (pass_trace (Reconcile req1 w1)))
  = map fst (creates (pass_trace (Reconcile req2 w2))).

End Controller.

(** ** A small cluster

    A concrete cluster on which the pass can be run: the declared
    runtimes, the objects the API server refuses to create, and what has
    been created, mounted and deployed so far. *)

Module Toy.

Record Runtime := mkRuntime {
  rtName : string; rtNamespace : string; rtRuntime : RuntimeType
}.

Record State := mkState {
  declared : list Runtime;
  denied : list string;
  objects : list string;
  mounted : list string;
  deployed : list string
}.

Definition mem (k : string) (l : list string) : bool := existsb (String.eqb k) l.

Definition key (i : Runtime) : string := (rtNamespace i ++ "/" ++ rtName i)%string.

Definition lookup (name namespace : string) (w : State)
  : (option Runtime * option string) * State :=
  ((find (fun i => String.eqb (rtName i) name && String.eqb (rtNamespace i) namespace)
         (declared w), None), w).

Definition ensure (o : string) (w : State) : option string * State :=
  if mem o (denied w) then (Some "forbidden", w)
  else if mem o (objects w) then (None, w)
  else (None, mkState (declared w) (denied w) (o :: objects w) (mounted w) (deployed w)).

Definition mountConfig (i : Runtime) (w : State) : option string * State :=
  if mem (key i) (mounted w) then (None, w)
  else (None, mkState (declared w) (denied w) (objects w) (key i :: mounted w) (deployed w)).

(** Thirty seconds, in nanoseconds. *)
Definition thirtySeconds : Duration := 30000000000.

Definition converge (d : ServiceDefinition) (i : Runtime) (w : State)
  : (Duration * option string) * State :=
  if mem (key i) (deployed w) then ((0, None), w)
  else ((thirtySeconds, None),
        mkState (declared w) (denied w) (objects w) (mounted w) (key i :: deployed w)).

Definition cluster : Cluster :=
  {| World := State;
     error := string;
     KogitoRuntime := Runtime;
     Object := string;
     instanceName := rtName;
     GetRuntime := rtRuntime;
     QuarkusRuntimeType := "quarkus";
     LatestTag := "latest";
     getServiceViewerRole := fun ns => ("role/" ++ ns)%string;
     getServiceViewerServiceAccount := fun ns => ("serviceaccount/" ++ ns)%string;
     getServiceViewerRoleBinding := fun ns => ("rolebinding/" ++ ns)%string;
     fetchKogitoRuntimeService := lookup;
     createIfNotExists := ensure;
     mountProtoBufConfigMapOnDataIndex := mountConfig;
     deploy := converge |}.

Definition runtimeA : Runtime := mkRuntime "runtimeA" "ns1" "quarkus".
Definition runtimeB : Runtime := mkRuntime "runtimeB" "ns1" "springboot".

Definition reqA : Request := mkRequest "runtimeA" "ns1".
Definition reqB : Request := mkRequest "runtimeB" "ns1".
Definition reqGone : Request := mkRequest "gone" "ns1".

(** A fresh cluster with two declared runtimes. *)
Definition fresh : State := mkState [runtimeA; runtimeB] [] [] [] [].

(** The same cluster, where creating the role is refused. *)
Definition roleDenied : State := mkState [runtimeA; runtimeB] ["role/ns1"] [] [] [].

Definition run (req : Request) (w : State) : Pass (C := cluster) :=
  Reconcile (C := cluster) req w.

(** A cluster whose delegate answers with a negative duration. *)
Definition hasty : Cluster :=
  {| World := State;
     error := string;
     KogitoRuntime := Runtime;
     Object := string;
     instanceName := rtName;
     GetRuntime := rtRuntime;
     QuarkusRuntimeType := "quarkus";
     LatestTag := "latest";
     getServiceViewerRole := fun ns => ("role/" ++ ns)%string;
     getServiceViewerServiceAccount := fun ns => ("serviceaccount/" ++ ns)%string;
     getServiceViewerRoleBinding := fun ns => ("rolebinding/" ++ ns)%string;
     fetchKogitoRuntimeService := lookup;
     createIfNotExists := ensure;
     mountProtoBufConfigMapOnDataIndex := mountConfig;
     deploy := fun _ _ w => ((-1, None), w) |}.

(** The event of the delegate call in the first pass for [runtimeA] on
    the fresh cluster, the seventh of its trace. *)
Definition deployEventA : Event (C := cluster) :=
  nth 6 (pass_trace (run reqA fresh))
      (mkEvent (C := cluster) (ALog LInfo None "" []) fresh fresh).

(** The event of the delegate call in the pass for [runtimeA] on the
    fresh cluster whose delegate answers with a negative duration. *)
Definition hastyDeployEventA : Event (C := hasty) :=
  nth 6 (pass_trace (Reconcile (C := hasty) reqA fresh))
      (mkEvent (C := hasty) (ALog LInfo None "" []) fresh fresh).

(** The error log of the pass for [runtimeA] on the cluster that refuses
    the role, the fourth event of its trace. *)
Definition roleDeniedLogA : Event (C := cluster) :=
  nth 3 (pass_trace (run reqA roleDenied))
      (mkEvent (C := cluster) (ALog LInfo None "" []) roleDenied roleDenied).

(** The write has been carried out already, and is not refused. *)
Definition done (c : Write (C := cluster)) (w : State) : bool :=
  match c with
  | WCreate o => negb (mem o (denied w)) && mem o (objects w)
  | WMount i => mem (key i) (mounted w)
  | WDeploy _ i => mem (key i) (deployed w)
  end.

End Toy.

(** ** Event admission *)

(** C3: a delete event never produces a trigger; an update event produces
    one exactly when the new object's deletion timestamp is zero or unset;
    a create event always produces one. *)
Theorem pred_events :
  (forall e, triggers pred (OnDelete e) = false)
  /\ (forall e, triggers pred (OnUpdate e) = true
                <-> IsZero (GetDeletionTimestamp (MetaNew e)) = true)
  /\ (forall e, triggers pred (OnCreate e) = true).
Proof.
  repeat split; intros; try assumption; reflexivity.
Qed.

(** C9: a generic event always produces a trigger: the predicate sets no
    function for generic events, so the default admits them. *)
Theorem pred_generic_default :
  GenericFunc pred = None /\ forall e, triggers pred (OnGeneric e) = true.
Proof.
  split; [reflexivity | intro e; reflexivity].
Qed.

(** ** The pass *)

(** Splitting a trace at one of its events. *)
Lemma split_at_cons {A} (x : A) l t1 y t2 :
  x :: l = t1 ++ y :: t2 ->
  (t1 = [] /\ y = x /\ t2 = l) \/ (exists t1', t1 = x :: t1' /\ l = t1' ++ y :: t2).
Proof.
  destruct t1 as [|z t1']; cbn; intro H; injection H as -> ->.
  - left; repeat split.
  - right; exists t1'; split; reflexivity.
Qed.

Lemma split_at_nil {A} (t1 : list A) y t2 : [] = t1 ++ y :: t2 -> False.
Proof. destruct t1; discriminate. Qed.

(** Every position of an event in an explicit trace. *)
Ltac positions H :=
  repeat match type of H with
         | [] = _ ++ _ :: _ => exfalso; exact (split_at_nil _ _ _ H)
         | _ :: _ = _ ++ _ :: _ =>
             apply split_at_cons in H;
             destruct H as [(-> & -> & ->) | (? & -> & H)]
         end.

(** Every member of an explicit trace. *)
Ltac members H :=
  cbn in H;
  repeat match type of H with
         | False => destruct H
         | _ \/ _ => destruct H as [<- | H]
         end.

Section Facts.

Context {C : Cluster}.

(** Exposes the calls of a pass. *)
Ltac pass_unfold :=
  unfold Reconcile, setupRBAC, bind, ret, Log, FetchKogitoRuntimeService,
    CreateIfNotExists, MountProtoBufConfigMapOnDataIndex, Deploy,
    pass_result, pass_err, pass_world, pass_trace;
  cbn.

(** Runs the pass symbolically: one case per outcome of each collaborator
    call that the pass reaches. *)
Ltac pass_cases :=
  pass_unfold;
  repeat (match goal with
          | |- context [fetchKogitoRuntimeService ?n ?ns ?w] =>
              destruct (fetchKogitoRuntimeService n ns w) as [[[?|] [?|]] ?] eqn:?
          | |- context [createIfNotExists ?o ?w] =>
              destruct (createIfNotExists o w) as [[?|] ?] eqn:?
          | |- context [mountProtoBufConfigMapOnDataIndex ?i ?w] =>
              destruct (mountProtoBufConfigMapOnDataIndex i w) as [[?|] ?] eqn:?
          | |- context [deploy ?d ?i ?w] =>
              destruct (deploy d i w) as [[? [?|]] ?] eqn:?
          | |- context [?d >? 0] => destruct (d >? 0) eqn:?
          end; cbn).

(** C8: the result of a pass asks for a requeue exactly when its delay is
    positive, and a pass that returns an error returns the zero result. *)
Theorem Reconcile_result_consistent (req : Request) (w : World) :
  let p := Reconcile req w in
  (Requeue (pass_result p) = true <-> RequeueAfter (pass_result p) > 0)
  /\ (pass_err p <> None -> pass_result p = zeroResult).
Proof.
  pass_cases; (split; [split; intro; try discriminate; try lia; auto | intro; try reflexivity; congruence]).
Qed.

(** C4: when the fetch reports the instance absent, without error, the
    pass returns the zero result and no error, and makes no bootstrap
    create, no mount propagation and no delegate call. *)
Theorem Reconcile_absent (req : Request) (w w' : World) :
  fetchKogitoRuntimeService (Name req) (Namespace req) w = ((None, None), w') ->
  let p := Reconcile req w in
  pass_result p = zeroResult
  /\ pass_err p = None
  /\ pass_world p = w'
  /\ forallb is_write (pass_trace p) = false
  /\ Forall (fun ev => is_write ev = false) (pass_trace p).
Proof.
  intro Hfetch. pass_unfold. rewrite Hfetch; cbn.
  repeat split; repeat constructor.
Qed.

(** C2: when the delegate returns a positive duration and no error, the
    pass returns no error and a result that asks for a requeue after that
    same duration; when it returns zero and no error, the pass returns the
    zero result and no error. *)
Theorem Reconcile_requeue (req : Request) (w : World) (ev : Event)
    (definition : ServiceDefinition) (instance : KogitoRuntime) (d : Duration) :
  In ev (pass_trace (Reconcile req w)) ->
  action ev = ADeploy definition instance (d, None) ->
  let p := Reconcile req w in
  pass_err p = None
  /\ (d > 0 -> pass_result p = {| Requeue := true; RequeueAfter := d |})
  /\ (d = 0 -> pass_result p = zeroResult).
Proof.
  pass_cases; intros Hin Hev; members Hin; cbn in Hev; try discriminate;
    injection Hev as <- <- <-;
    (split; [reflexivity | split; intro; try reflexivity; lia]).
Qed.

(** C7: the probe of the service definition handed to the delegate is the
    Quarkus probe exactly when the runtime type of the fetched instance is
    the Quarkus one, and the TCP probe for every other runtime type. *)
Theorem Reconcile_probe (req : Request) (w : World) (ev : Event)
    (definition : ServiceDefinition) (instance : KogitoRuntime)
    (r : Duration * option error) :
  In ev (pass_trace (Reconcile req w)) ->
  action ev = ADeploy definition instance r ->
  (exists w', fetchKogitoRuntimeService (Name req) (Namespace req) w
              = ((Some instance, None), w'))
  /\ (HealthCheckProbe definition = QuarkusHealthCheckProbe
      <-> GetRuntime instance = QuarkusRuntimeType)
  /\ (HealthCheckProbe definition = TCPHealthCheckProbe
      <-> GetRuntime instance <> QuarkusRuntimeType).
Proof.
  pass_cases; intros Hin Hev; members Hin; cbn in Hev; try discriminate;
    injection Hev as <- <- <-;
    (split; [eexists; reflexivity |]);
    unfold serviceDefinition, healthCheckProbeType; cbn;
    match goal with
    | |- context [String.eqb ?a ?b] => destruct (String.eqb_spec a b)
    end;
    (split; split; intro; congruence).
Qed.

(** C5: when a step of the pass returns an error, the pass returns that
    error with the zero result, makes no further call to a collaborator,
    and leaves the cluster as the failing step left it. *)
Theorem Reconcile_fail_fast (req : Request) (w : World)
    (before : list Event) (ev : Event) (after : list Event) (e : error) :
  pass_trace (Reconcile req w) = before ++ ev :: after ->
  action_err (action ev) = Some e ->
  let p := Reconcile req w in
  pass_err p = Some e
  /\ pass_result p = zeroResult
  /\ Forall (fun ev' => is_log ev' = true) after
  /\ pass_world p = post ev.
Proof.
  pass_cases; intros Htrace Herr; positions Htrace; cbn in Herr; try discriminate;
    injection Herr as <-;
    repeat split; repeat constructor.
Qed.

(** C6, as the code has it: in a pass that reaches the bootstrap step the
    creates are issued in the order role, service account, role binding,
    each at most once and each only after the ones before it returned no
    error; the role create is always issued, and when no create returns an
    error each of the three is issued exactly once. *)
Theorem setupRBAC_creates (req : Request) (w : World) :
  reaches_bootstrap req w ->
  let p := Reconcile req w in
  let cs := creates (pass_trace p) in
  let ns := Namespace req in
  ((exists e, cs = [(getServiceViewerRole ns, Some e)])
   \/ (exists e, cs = [(getServiceViewerRole ns, None);
                       (getServiceViewerServiceAccount ns, Some e)])
   \/ (exists r, cs = [(getServiceViewerRole ns, None);
                       (getServiceViewerServiceAccount ns, None);
                       (getServiceViewerRoleBinding ns, r)]))
  /\ (Forall (fun c => snd c = None) cs -> creates_each_once req p).
Proof.
  intros (i & w' & Hfetch). unfold creates_each_once.
  pass_unfold. rewrite Hfetch; cbn.
  pass_cases;
    (split;
     [ first [ left; eexists; reflexivity
             | right; left; eexists; reflexivity
             | right; right; eexists; reflexivity ]
     | intro Hall; try reflexivity;
       repeat match goal with
              | H : Forall _ (_ :: _) |- _ => inversion H; clear H; subst
              end;
       cbn in *; discriminate ]).
Qed.

(** C10, as the code has it: two passes whose requests share the namespace
    and that enter the bootstrap step in the same cluster state issue the
    same create calls, with the same outcomes, whatever the request names
    and the fetched instances.  The objects created are the first [k] of
    the role, the service account and the role binding of that namespace,
    with [k] at least one, and all three when no create returns an error. *)
Theorem setupRBAC_namespace_only (req1 req2 : Request) (w1 w2 w : World)
    (instance1 instance2 : KogitoRuntime) :
  Namespace req1 = Namespace req2 ->
  fetchKogitoRuntimeService (Name req1) (Namespace req1) w1
  = ((Some instance1, None), w) ->
  fetchKogitoRuntimeService (Name req2) (Namespace req2) w2
  = ((Some instance2, None), w) ->
  let t1 := pass_trace (Reconcile req1 w1) in
  let t2 := pass_trace (Reconcile req2 w2) in
  filter is_create t1 = filter is_create t2
  /\ exists k,
      (1 <= k <= 3)%nat
      /\ map fst (creates t1) = firstn k (serviceViewerObjects (Namespace req1))
      /\ map fst (creates t2) = firstn k (serviceViewerObjects (Namespace req1))
      /\ (Forall (fun c => snd c = None) (creates t1) -> k = 3%nat).
Proof.
  intros Hns Hf1 Hf2. unfold serviceViewerObjects.
  pass_unfold. rewrite Hf1, Hf2, Hns; cbn.
  pass_cases; (split; [reflexivity |]);
    first [ exists 1%nat; split; [lia |]; split; [reflexivity |];
            split; [reflexivity |]; intro Hall;
            repeat match goal with
                   | H : Forall _ (_ :: _) |- _ => inversion H; clear H; subst
                   end;
            cbn in *; discriminate
          | exists 2%nat; split; [lia |]; split; [reflexivity |];
            split; [reflexivity |]; intro Hall;
            repeat match goal with
                   | H : Forall _ (_ :: _) |- _ => inversion H; clear H; subst
                   end;
            cbn in *; discriminate
          | exists 3%nat; split; [lia |]; split; [reflexivity |];
            split; reflexivity ].
Qed.

(** *** Two passes in succession *)

(** A write of the pass, read as a step of the cluster. *)
Lemma perform_create o w r w' :
  createIfNotExists o w = (r, w') -> perform (WCreate o) w = (r, w').
Proof. intro H; exact H. Qed.

Lemma perform_mount i w r w' :
  mountProtoBufConfigMapOnDataIndex i w = (r, w') -> perform (WMount i) w = (r, w').
Proof. intro H; exact H. Qed.

Lemma perform_deploy d i w r w' :
  deploy d i w = (r, w') -> perform (WDeploy d i) w = (snd r, w').
Proof. intro H; cbn; rewrite H; reflexivity. Qed.

Section Contract.

Hypothesis contract : IdempotentCollaborators.

(** A settled write stays settled across a step. *)
Lemma settled_step c c' w r w' :
  perform c' w = (r, w') -> settled c w -> settled c w'.
Proof.
  intros Hstep Hs.
  replace w' with (snd (perform c' w)) by (rewrite Hstep; reflexivity).
  now apply (settled_frame contract).
Qed.

(** A step does not change what the fetch returns. *)
Lemma fetch_step name namespace c w r w' :
  perform c w = (r, w') ->
  fst (fetchKogitoRuntimeService name namespace w')
  = fst (fetchKogitoRuntimeService name namespace w).
Proof.
  intro Hstep.
  replace w' with (snd (perform c w)) by (rewrite Hstep; reflexivity).
  apply (fetch_frame contract).
Qed.

(** The fetch, once its result is known. *)
Lemma fetch_at name namespace w r :
  fst (fetchKogitoRuntimeService name namespace w) = r ->
  fetchKogitoRuntimeService name namespace w = (r, w).
Proof.
  intros <-. rewrite <- (fetch_reads contract name namespace w) at 3.
  apply surjective_pairing.
Qed.

(** What a pass without error leaves behind. *)
Lemma Reconcile_settles (req : Request) (w : World) :
  pass_err (Reconcile req w) = None ->
  pass_settled req (pass_world (Reconcile req w)).
Proof.
  remember (pass_settled req) as Q eqn:HQ.
  pose proof (fetch_reads contract (Name req) (Namespace req) w) as Hw.
  revert Hw.
  pass_cases; intros Hw Herr; try discriminate; subst Q;
    cbn in Hw; subst;
    repeat match goal with
           | H : createIfNotExists _ _ = _ |- _ => apply perform_create in H
           | H : mountProtoBufConfigMapOnDataIndex _ _ = _ |- _ => apply perform_mount in H
           | H : deploy _ _ _ = _ |- _ => apply perform_deploy in H; cbn [snd] in H
           end;
    match goal with
    | H : fetchKogitoRuntimeService _ _ _ = _ |- _ => rename H into Hfetch
    end.
  all: first
    [ (* absent *)
      left; exact Hfetch
    | (* the instance is there: every write is settled *)
      right; eexists; split;
      [ apply fetch_at;
        repeat match goal with
               | H : perform _ _ = (_, ?w')
                 |- fst (fetchKogitoRuntimeService _ _ ?w') = _ =>
                   rewrite (fetch_step _ _ _ _ _ _ H)
               end;
        rewrite Hfetch; reflexivity
      | repeat constructor;
        repeat match goal with
               | H : perform ?c _ = (None, ?w') |- settled ?c ?w' =>
                   exact (perform_idem contract _ _ _ H)
               | H : perform _ _ = (_, ?w') |- settled _ ?w' =>
                   apply (settled_step _ _ _ _ _ H)
               end ] ].
Qed.

(** A pass on a settled cluster returns no error and changes nothing. *)
Lemma Reconcile_on_settled (req : Request) (w : World) :
  pass_settled req w ->
  let p := Reconcile req w in
  pass_err p = None /\ pass_world p = w /\ Forall noop (pass_trace p).
Proof.
  intros [Hfetch | (i & Hfetch & Hs)]; unfold noop.
  - pass_unfold. rewrite Hfetch; cbn.
    repeat split; repeat constructor.
  - repeat match goal with
           | H : Forall _ (_ :: _) |- _ => inversion H; clear H; subst
           end.
    unfold settled, perform in *.
    destruct (deploy (serviceDefinition req i) i w) as [[d e] w'] eqn:Hd.
    cbn [snd] in *.
    match goal with H : (e, w') = (None, w) |- _ => injection H as -> -> end.
    pass_unfold. rewrite Hfetch; cbn.
    repeat match goal with
           | H : ?t = (None, w) |- context [?t] => rewrite H; cbn
           end.
    rewrite Hd; cbn.
    destruct (d >? 0); cbn; repeat split; repeat constructor.
Qed.

End Contract.

(** C1, as the code has it: with collaborators that honour the contract
    (the fetch only reads, the writes of a pass leave what it reads alone,
    a write that has succeeded is settled, a settled write stays settled
    across the writes of a pass), a pass that follows a pass that returned
    no error, for the same key and with nothing else changing the cluster,
    returns no error and leaves the cluster as the first pass left it;
    every call of the second pass, the bootstrap creates, the mount
    propagation and the delegate call among them, is a call that returns
    no error and changes nothing. *)
Theorem Reconcile_twice (req : Request) (w : World) :
  IdempotentCollaborators ->
  let p1 := Reconcile req w in
  pass_err p1 = None ->
  let p2 := Reconcile req (pass_world p1) in
  pass_err p2 = None
  /\ pass_world p2 = pass_world p1
  /\ Forall noop (pass_trace p2).
Proof.
  intros contract p1 Herr p2.
  apply Reconcile_on_settled, Reconcile_settles; assumption.
Qed.

(** ** Further properties of the pass *)

(** Splits an explicit trace at its [n]-th event. *)
Ltac split_trace_at n :=
  match goal with
  | |- exists before ev after, (?x :: ?t) = _ /\ _ =>
      exists (firstn n (x :: t)), (nth n (x :: t) x), (skipn (S n) (x :: t));
      cbn; repeat split; repeat constructor
  end.

(** X1: the collaborator calls of a pass are the fetch alone, or, when the
    fetch found an instance, the first [k] calls of the plan fetch, role,
    service account, role binding, mount, delegate, with [k] at least two:
    each call is made at most once, in that order, and the mount and the
    delegate are given the fetched instance. *)
Theorem Reconcile_calls_in_order (req : Request) (w : World) :
  let cs := calls (pass_trace (Reconcile req w)) in
  cs = [CFetch (Name req) (Namespace req)]
  \/ exists instance w' k,
      fetchKogitoRuntimeService (Name req) (Namespace req) w
      = ((Some instance, None), w')
      /\ (2 <= k <= 6)%nat
      /\ cs = firstn k (plan req instance).
Proof.
  pass_cases;
    first [ left; reflexivity
          | right; eexists; eexists;
            first [ exists 2%nat; repeat split; lia
                  | exists 3%nat; repeat split; lia
                  | exists 4%nat; repeat split; lia
                  | exists 5%nat; repeat split; lia
                  | exists 6%nat; repeat split; lia ] ].
Qed.

(** X2: a pass that fetched an instance and returns no error has made all
    six calls of the plan, each once, and each returned no error. *)
Theorem Reconcile_success_runs_all (req : Request) (w w' : World)
    (instance : KogitoRuntime) :
  fetchKogitoRuntimeService (Name req) (Namespace req) w
  = ((Some instance, None), w') ->
  pass_err (Reconcile req w) = None ->
  let t := pass_trace (Reconcile req w) in
  calls t = plan req instance
  /\ Forall (fun a => action_err a = None) (steps t).
Proof.
  intros Hfetch. pass_unfold. rewrite Hfetch; cbn.
  pass_cases; intro Herr; try discriminate;
    (split; [reflexivity | repeat constructor]).
Qed.

(** X3: an error returned by a pass is the error returned by one of its
    collaborator calls: every call before that one returned no error, and
    only logging follows it. *)
Theorem Reconcile_error_provenance (req : Request) (w : World) (e : error) :
  pass_err (Reconcile req w) = Some e ->
  exists before ev after,
    pass_trace (Reconcile req w) = before ++ ev :: after
    /\ action_err (action ev) = Some e
    /\ Forall (fun ev' => action_err (action ev') = None) before
    /\ Forall (fun ev' => is_log ev' = true) after.
Proof.
  pass_cases; intro Herr; try discriminate; injection Herr as ->;
    first [ solve [split_trace_at 1%nat] | solve [split_trace_at 2%nat]
          | solve [split_trace_at 3%nat] | solve [split_trace_at 4%nat]
          | solve [split_trace_at 5%nat] | solve [split_trace_at 6%nat] ].
Qed.

(** X4: the result of a pass is the zero result unless the delegate was
    called and returned a positive duration and no error; the result then
    carries that duration, and the pass returns no error.  The delay of a
    result is never negative. *)
Theorem Reconcile_requeue_provenance (req : Request) (w : World) :
  let p := Reconcile req w in
  (pass_result p = zeroResult
   \/ exists ev definition instance d,
       In ev (pass_trace p)
       /\ action ev = ADeploy definition instance (d, None)
       /\ d > 0
       /\ pass_err p = None
       /\ pass_result p = {| Requeue := true; RequeueAfter := d |})
  /\ 0 <= RequeueAfter (pass_result p).
Proof.
  pass_cases; (split; [| cbn; lia]);
    first [ left; reflexivity
          | right; eexists; eexists; eexists; eexists;
            split; [do 6 right; left; reflexivity |];
            split; [reflexivity |];
            split; [lia |]; split; reflexivity ].
Qed.

(** X5: when the delegate returns no error and a duration that is zero or
    negative, the pass returns the zero result and no error, and logs no
    wait. *)
Theorem Reconcile_nonpositive_duration (req : Request) (w : World) (ev : Event)
    (definition : ServiceDefinition) (instance : KogitoRuntime) (d : Duration) :
  In ev (pass_trace (Reconcile req w)) ->
  action ev = ADeploy definition instance (d, None) ->
  d <= 0 ->
  let p := Reconcile req w in
  pass_result p = zeroResult
  /\ pass_err p = None
  /\ last (pass_trace p) ev = ev.
Proof.
  pass_cases; intros Hin Hev Hd; members Hin; cbn in Hev; try discriminate;
    injection Hev as <- <- <-; try lia;
    repeat split.
Qed.

(** X6: when the delegate is called in a pass, the collaborator calls of
    the pass were, in order and each with no error: the fetch, which found
    the instance, the three creates and the mount; the delegate call is
    the last one, and its definition is the one built for the request and
    the fetched instance. *)
Theorem Reconcile_delegate_last (req : Request) (w : World) (ev : Event)
    (definition : ServiceDefinition) (instance : KogitoRuntime)
    (r : Duration * option error) :
  In ev (pass_trace (Reconcile req w)) ->
  action ev = ADeploy definition instance r ->
  steps (pass_trace (Reconcile req w))
  = [AFetch (Name req) (Namespace req) (Some instance, None);
     ACreateIfNotExists (getServiceViewerRole (Namespace req)) None;
     ACreateIfNotExists (getServiceViewerServiceAccount (Namespace req)) None;
     ACreateIfNotExists (getServiceViewerRoleBinding (Namespace req)) None;
     AMount instance None;
     ADeploy (serviceDefinition req instance) instance r]
  /\ definition = serviceDefinition req instance.
Proof.
  pass_cases; intros Hin Hev; members Hin; cbn in Hev; try discriminate;
    injection Hev as <- <- <-; split; reflexivity.
Qed.

(** X7: an error that a pass logs is the error that the pass returns; the
    log entry is the last event of the pass, and the failing call was a
    create of the bootstrap or the mount, never the fetch or the delegate. *)
Theorem Reconcile_logged_error_returned (req : Request) (w : World) (ev : Event)
    (oe : option error) (msg : string) (kvs : list string) :
  In ev (pass_trace (Reconcile req w)) ->
  action ev = ALog LError oe msg kvs ->
  let p := Reconcile req w in
  oe = pass_err p
  /\ oe <> None
  /\ last (pass_trace p) ev = ev
  /\ let a := last (steps (pass_trace p)) (action ev) in
     action_err a = oe
     /\ match a with
        | ACreateIfNotExists _ _ | AMount _ _ => True
        | _ => False
        end.
Proof.
  pass_cases; intros Hin Hev; members Hin; cbn in Hev; try discriminate;
    injection Hev as <- <- <-;
    (split; [reflexivity |]);
    (split; [discriminate |]);
    (split; [reflexivity |]);
    (split; [reflexivity | exact I]).
Qed.

(** X8: [setupRBAC] returns what the last create it issued returned; it
    returns no error exactly when it issued the three creates and each of
    them returned no error. *)
Theorem setupRBAC_result (namespace : string) (w : World) :
  let err := fst (fst (setupRBAC namespace w)) in
  let cs := creates (snd (setupRBAC namespace w)) in
  last (map snd cs) None = err
  /\ (err = None
      <-> cs = [(getServiceViewerRole namespace, None);
               (getServiceViewerServiceAccount namespace, None);
               (getServiceViewerRoleBinding namespace, None)]).
Proof.
  pass_cases; (split; [reflexivity | split; intro H; first [discriminate H | reflexivity]]).
Qed.

(** Invariants of the collaborators are invariants of a pass. *)
Lemma pass_invariant (P : World -> Prop) :
  (forall name namespace w,
      P w -> P (snd (fetchKogitoRuntimeService name namespace w))) ->
  (forall c w, P w -> P (snd (perform c w))) ->
  forall req w, P w -> P (pass_world (Reconcile req w)).
Proof.
  intros Hfetch Hwrite req w.
  pose proof (Hfetch (Name req) (Namespace req) w) as Hf.
  assert (Hc : forall o w0 r w0', createIfNotExists o w0 = (r, w0') -> P w0 -> P w0').
  { intros o w0 r w0' H Hp. specialize (Hwrite (WCreate o) w0 Hp).
    cbn in Hwrite. now rewrite H in Hwrite. }
  assert (Hm : forall i w0 r w0',
             mountProtoBufConfigMapOnDataIndex i w0 = (r, w0') -> P w0 -> P w0').
  { intros i w0 r w0' H Hp. specialize (Hwrite (WMount i) w0 Hp).
    cbn in Hwrite. now rewrite H in Hwrite. }
  assert (Hd : forall d i w0 r w0', deploy d i w0 = (r, w0') -> P w0 -> P w0').
  { intros d i w0 r w0' H Hp. specialize (Hwrite (WDeploy d i) w0 Hp).
    cbn in Hwrite. now rewrite H in Hwrite. }
  clear Hfetch Hwrite. revert Hf.
  pass_cases; intros Hf Hp; specialize (Hf Hp); cbn in Hf;
    repeat match goal with
           | H : createIfNotExists _ ?w0 = (_, ?w1), Hp0 : P ?w0 |- _ =>
               pose proof (Hc _ _ _ _ H Hp0); clear H
           | H : mountProtoBufConfigMapOnDataIndex _ ?w0 = (_, ?w1), Hp0 : P ?w0 |- _ =>
               pose proof (Hm _ _ _ _ H Hp0); clear H
           | H : deploy _ _ ?w0 = (_, ?w1), Hp0 : P ?w0 |- _ =>
               pose proof (Hd _ _ _ _ _ H Hp0); clear H
           end;
    assumption.
Qed.

(** The calls of a pass that returns no error. *)
Lemma calls_of_success (req : Request) (w : World) :
  pass_err (Reconcile req w) = None ->
  calls (pass_trace (Reconcile req w))
  = match fst (fst (fetchKogitoRuntimeService (Name req) (Namespace req) w)) with
    | Some instance => plan req instance
    | None => [CFetch (Name req) (Namespace req)]
    end.
Proof.
  pass_cases; intro Herr; try discriminate; reflexivity.
Qed.

(** With the contract, a pass leaves what the fetch returns as it was. *)
Lemma fetch_kept (contract : IdempotentCollaborators)
    (name namespace : string) (req : Request) (w : World) :
  fst (fetchKogitoRuntimeService name namespace (pass_world (Reconcile req w)))
  = fst (fetchKogitoRuntimeService name namespace w).
Proof.
  apply (pass_invariant
           (fun w' => fst (fetchKogitoRuntimeService name namespace w')
                      = fst (fetchKogitoRuntimeService name namespace w))).
  - intros n ns w0 H. now rewrite (fetch_reads contract).
  - intros c w0 H. now rewrite (fetch_frame contract).
  - reflexivity.
Qed.


(** X10: with collaborators that honour the contract, after a pass
    without error any number of further passes for the same request leave
    the cluster as that pass left it, and the pass after them returns no
    error and consists of calls that change nothing. *)
Theorem Reconcile_many (req : Request) (w : World) (n : nat) :
  IdempotentCollaborators ->
  pass_err (Reconcile req w) = None ->
  let w1 := pass_world (Reconcile req w) in
  reconcile_n req n w1 = w1
  /\ pass_err (Reconcile req (reconcile_n req n w1)) = None
  /\ Forall noop (pass_trace (Reconcile req (reconcile_n req n w1))).
Proof.
  intros contract Herr w1.
  pose proof (Reconcile_settles contract req w Herr) as Hs. fold w1 in Hs.
  destruct (Reconcile_on_settled req w1 Hs) as (Herr1 & Hw1 & Hnoop).
  assert (Hn : reconcile_n req n w1 = w1).
  { induction n as [|n IH]; cbn [reconcile_n]; [reflexivity |].
    rewrite Hw1. exact IH. }
  rewrite Hn. repeat split; assumption.
Qed.

(** X11: with collaborators that honour the contract, the pass that
    follows a pass without error makes the same collaborator calls, on the
    same arguments and in the same order. *)
Theorem Reconcile_twice_same_calls (req : Request) (w : World) :
  IdempotentCollaborators ->
  pass_err (Reconcile req w) = None ->
  calls (pass_trace (Reconcile req (pass_world (Reconcile req w))))
  = calls (pass_trace (Reconcile req w)).
Proof.
  intros contract Herr.
  pose proof (Reconcile_settles contract req w Herr) as Hs.
  destruct (Reconcile_on_settled req _ Hs) as (Herr1 & _ & _).
  rewrite (calls_of_success req _ Herr1), (calls_of_success req w Herr).
  now rewrite (fetch_kept contract).
Qed.


End Facts.

(** ** The small cluster honours the contract *)

Module ToyFacts.
Import Toy.

Lemma cons_neq {A} (x : A) (l : list A) : x :: l <> l.
Proof.
  intro H. apply (f_equal (@List.length A)) in H. cbn in H. lia.
Qed.

Lemma mem_cons (k o : string) (l : list string) :
  mem k l = true -> mem k (o :: l) = true.
Proof.
  unfold mem; cbn. intros ->. apply orb_true_r.
Qed.

Lemma mem_head (k : string) (l : list string) : mem k (k :: l) = true.
Proof.
  unfold mem; cbn. now rewrite String.eqb_refl.
Qed.

(** A write is settled exactly when it is done. *)
Lemma settled_done (c : Write (C := cluster)) (w : State) :
  settled c w <-> done c w = true.
Proof.
  unfold settled; destruct c as [o | i | d i]; cbn;
    unfold ensure, mountConfig, converge.
  - destruct (mem o (denied w)); cbn; [split; discriminate |].
    destruct (mem o (objects w)) eqn:Ho; cbn; [tauto |].
    split; [| discriminate].
    intro H. injection H as H. destruct w; cbn in *.
    injection H as H. now apply cons_neq in H.
  - destruct (mem (key i) (mounted w)); cbn; [tauto |].
    split; [| discriminate].
    intro H. injection H as H. destruct w; cbn in *.
    injection H as H. now apply cons_neq in H.
  - destruct (mem (key i) (deployed w)); cbn; [tauto |].
    split; [| discriminate].
    intro H. injection H as H. destruct w; cbn in *.
    injection H as H. now apply cons_neq in H.
Qed.

(** A successful write is done afterwards. *)
Lemma perform_done (c : Write (C := cluster)) (w w' : State) :
  perform c w = (None, w') -> done c w' = true.
Proof.
  destruct c as [o | i | d i]; cbn [perform createIfNotExists
    mountProtoBufConfigMapOnDataIndex deploy cluster];
    unfold ensure, mountConfig, converge.
  - destruct (mem o (denied w)) eqn:Hd; [discriminate |].
    destruct (mem o (objects w)) eqn:Ho; intro H; injection H as <-;
      cbn [done denied objects]; rewrite Hd; cbn [negb andb];
      [exact Ho | apply mem_head].
  - destruct (mem (key i) (mounted w)) eqn:Hm; intro H; injection H as <-;
      cbn [done mounted]; [exact Hm | apply mem_head].
  - destruct (mem (key i) (deployed w)) eqn:Hm; cbn [snd]; intro H;
      injection H as <-; cbn [done deployed]; [exact Hm | apply mem_head].
Qed.

(** Writes only add to the cluster. *)
Lemma done_mono (c c' : Write (C := cluster)) (w : State) :
  done c w = true -> done c (snd (perform c' w)) = true.
Proof.
  intro Hc.
  destruct c' as [o' | i' | d' i']; cbn [perform createIfNotExists
    mountProtoBufConfigMapOnDataIndex deploy cluster];
    unfold ensure, mountConfig, converge.
  - destruct (mem o' (denied w)); [exact Hc |].
    destruct (mem o' (objects w)); [exact Hc |].
    destruct c; cbn [done snd denied objects mounted deployed] in *; try exact Hc.
    apply andb_true_iff in Hc as [-> Ho]. cbn [andb]. now apply mem_cons.
  - destruct (mem (key i') (mounted w)); [exact Hc |].
    destruct c; cbn [done snd denied objects mounted deployed] in *; try exact Hc.
    now apply mem_cons.
  - destruct (mem (key i') (deployed w)); cbn [snd]; [exact Hc |].
    destruct c; cbn [done snd denied objects mounted deployed] in *; try exact Hc.
    now apply mem_cons.
Qed.

(** No write touches the declared runtimes. *)
Lemma declared_kept (c : Write (C := cluster)) (w : State) :
  declared (snd (perform c w)) = declared w.
Proof.
  destruct c as [o | i | d i]; cbn; unfold ensure, mountConfig, converge.
  - destruct (mem o (denied w)); [reflexivity |].
    destruct (mem o (objects w)); reflexivity.
  - destruct (mem (key i) (mounted w)); reflexivity.
  - destruct (mem (key i) (deployed w)); reflexivity.
Qed.

Lemma contract : IdempotentCollaborators (C := cluster).
Proof.
  constructor.
  - reflexivity.
  - intros name namespace c w.
    cbn [fetchKogitoRuntimeService cluster]. unfold lookup; cbn [fst].
    now rewrite (declared_kept c w).
  - intros c w w' H. apply settled_done. now apply (perform_done c w).
  - intros c c' w H. apply settled_done, done_mono. now apply settled_done.
Qed.

End ToyFacts.

(** ** Runs on the small cluster *)

Lemma Reconcile_twice_witness :
  IdempotentCollaborators (C := Toy.cluster)
  /\ let p1 := Toy.run Toy.reqA Toy.fresh in
     pass_err p1 = None
     /\ let p2 := Toy.run Toy.reqA (pass_world p1) in
        pass_err p2 = None
        /\ pass_world p2 = pass_world p1
        /\ Forall noop (pass_trace p2).
Proof.
  split; [exact ToyFacts.contract |].
  split; [reflexivity |].
  exact (Reconcile_twice (C := Toy.cluster) Toy.reqA Toy.fresh
           ToyFacts.contract eq_refl).
Defined.

Lemma Reconcile_requeue_witness :
  let p := Toy.run Toy.reqA Toy.fresh in
  In Toy.deployEventA (pass_trace p)
  /\ pass_err p = None
  /\ pass_result p = {| Requeue := true; RequeueAfter := Toy.thirtySeconds |}.
Proof.
  assert (Hin : In Toy.deployEventA (pass_trace (Toy.run Toy.reqA Toy.fresh)))
    by (do 6 right; left; reflexivity).
  split; [exact Hin |].
  destruct (Reconcile_requeue (C := Toy.cluster) Toy.reqA Toy.fresh
              Toy.deployEventA
              (serviceDefinition (C := Toy.cluster) Toy.reqA Toy.runtimeA)
              Toy.runtimeA Toy.thirtySeconds Hin eq_refl)
    as (Herr & Hpos & _).
  split; [exact Herr | apply Hpos; reflexivity].
Defined.

Lemma Reconcile_absent_witness :
  Toy.lookup "gone" "ns1" Toy.fresh = ((None, None), Toy.fresh)
  /\ let p := Toy.run Toy.reqGone Toy.fresh in
     pass_result p = zeroResult
     /\ pass_err p = None
     /\ pass_world p = Toy.fresh
     /\ forallb is_write (pass_trace p) = false
     /\ Forall (fun ev => is_write ev = false) (pass_trace p).
Proof.
  split; [reflexivity |].
  apply (Reconcile_absent (C := Toy.cluster) Toy.reqGone Toy.fresh Toy.fresh).
  reflexivity.
Defined.

Lemma Reconcile_fail_fast_witness :
  let p := Toy.run Toy.reqA Toy.roleDenied in
  let ev := nth 2 (pass_trace p) Toy.deployEventA in
  action ev = ACreateIfNotExists (C := Toy.cluster) "role/ns1" (Some "forbidden")
  /\ pass_err p = Some "forbidden"
  /\ pass_result p = zeroResult
  /\ Forall (fun ev' => is_log ev' = true) (skipn 3 (pass_trace p))
  /\ pass_world p = post ev.
Proof.
  split; [reflexivity |].
  apply (Reconcile_fail_fast (C := Toy.cluster) Toy.reqA Toy.roleDenied
           (firstn 2 (pass_trace (Toy.run Toy.reqA Toy.roleDenied)))
           (nth 2 (pass_trace (Toy.run Toy.reqA Toy.roleDenied)) Toy.deployEventA)
           (skipn 3 (pass_trace (Toy.run Toy.reqA Toy.roleDenied)))
           "forbidden");
    reflexivity.
Defined.

(** C6 as first stated fails: when the API server refuses the role,
    the pass has reached the bootstrap step and yet neither the service
    account nor the role binding is created. *)
Lemma creates_each_once_counterexample :
  reaches_bootstrap (C := Toy.cluster) Toy.reqA Toy.roleDenied
  /\ creates (pass_trace (Toy.run Toy.reqA Toy.roleDenied))
     = [("role/ns1", Some "forbidden")]
  /\ ~ creates_each_once (C := Toy.cluster) Toy.reqA
        (Toy.run Toy.reqA Toy.roleDenied).
Proof.
  split; [exists Toy.runtimeA, Toy.roleDenied; reflexivity |].
  split; [reflexivity |].
  intro H. vm_compute in H. discriminate H.
Qed.

Lemma setupRBAC_creates_witness :
  reaches_bootstrap (C := Toy.cluster) Toy.reqA Toy.fresh
  /\ creates_each_once (C := Toy.cluster) Toy.reqA (Toy.run Toy.reqA Toy.fresh).
Proof.
  assert (Hr : reaches_bootstrap (C := Toy.cluster) Toy.reqA Toy.fresh)
    by (exists Toy.runtimeA, Toy.fresh; reflexivity).
  split; [exact Hr |].
  apply (setupRBAC_creates (C := Toy.cluster) Toy.reqA Toy.fresh Hr).
  repeat constructor.
Defined.

Lemma Reconcile_probe_witness :
  In Toy.deployEventA (pass_trace (Toy.run Toy.reqA Toy.fresh))
  /\ (HealthCheckProbe (serviceDefinition (C := Toy.cluster) Toy.reqA Toy.runtimeA)
      = QuarkusHealthCheckProbe
      <-> Toy.rtRuntime Toy.runtimeA = "quarkus").
Proof.
  assert (Hin : In Toy.deployEventA (pass_trace (Toy.run Toy.reqA Toy.fresh)))
    by (do 6 right; left; reflexivity).
  split; [exact Hin |].
  exact (proj1 (proj2 (Reconcile_probe (C := Toy.cluster) Toy.reqA Toy.fresh
                         Toy.deployEventA
                         (serviceDefinition (C := Toy.cluster) Toy.reqA Toy.runtimeA)
                         Toy.runtimeA (Toy.thirtySeconds, None) Hin eq_refl))).
Defined.

Lemma setupRBAC_namespace_only_witness :
  Namespace Toy.reqA = Namespace Toy.reqB
  /\ map fst (creates (pass_trace (Toy.run Toy.reqA Toy.fresh)))
     = ["role/ns1"; "serviceaccount/ns1"; "rolebinding/ns1"]
  /\ filter is_create (pass_trace (Toy.run Toy.reqA Toy.fresh))
     = filter is_create (pass_trace (Toy.run Toy.reqB Toy.fresh))
  /\ exists k,
      (1 <= k <= 3)%nat
      /\ map fst (creates (pass_trace (Toy.run Toy.reqA Toy.fresh)))
         = firstn k (serviceViewerObjects (C := Toy.cluster) "ns1")
      /\ map fst (creates (pass_trace (Toy.run Toy.reqB Toy.fresh)))
         = firstn k (serviceViewerObjects (C := Toy.cluster) "ns1")
      /\ (Forall (fun c => snd c = None)
                 (creates (pass_trace (Toy.run Toy.reqA Toy.fresh)))
          -> k = 3%nat).
Proof.
  split; [reflexivity |].
  split; [reflexivity |].
  exact (setupRBAC_namespace_only (C := Toy.cluster) Toy.reqA Toy.reqB
           Toy.fresh Toy.fresh Toy.fresh
           Toy.runtimeA Toy.runtimeB eq_refl eq_refl eq_refl).
Defined.

(** C10 as first stated fails: two passes for requests of the same
    namespace, one on the fresh cluster and one on the cluster that refuses
    the role, both reach the bootstrap step, and the first creates the
    three objects while the second stops after the role. *)
Lemma same_creates_counterexample :
  Namespace Toy.reqA = Namespace Toy.reqB
  /\ reaches_bootstrap (C := Toy.cluster) Toy.reqA Toy.fresh
  /\ reaches_bootstrap (C := Toy.cluster) Toy.reqB Toy.roleDenied
  /\ map fst (creates (pass_trace (Toy.run Toy.reqA Toy.fresh)))
     = ["role/ns1"; "serviceaccount/ns1"; "rolebinding/ns1"]
  /\ map fst (creates (pass_trace (Toy.run Toy.reqB Toy.roleDenied)))
     = ["role/ns1"]
  /\ ~ same_creates (C := Toy.cluster) Toy.reqA Toy.fresh Toy.reqB Toy.roleDenied.
Proof.
  split; [reflexivity |].
  split; [exists Toy.runtimeA, Toy.fresh; reflexivity |].
  split; [exists Toy.runtimeB, Toy.roleDenied; reflexivity |].
  split; [reflexivity |].
  split; [reflexivity |].
  intro H. vm_compute in H. discriminate H.
Qed.

(** C1 as first stated fails: the small cluster honours the contract, and
    on the cluster that refuses the role the first pass returns an error
    and the pass that follows it returns the same error. *)
Lemma second_pass_quiet_counterexample :
  IdempotentCollaborators (C := Toy.cluster)
  /\ pass_err (Toy.run Toy.reqA Toy.roleDenied) = Some "forbidden"
  /\ pass_err (Toy.run Toy.reqA (pass_world (Toy.run Toy.reqA Toy.roleDenied)))
     = Some "forbidden"
  /\ ~ second_pass_quiet (C := Toy.cluster) Toy.reqA Toy.roleDenied.
Proof.
  split; [exact ToyFacts.contract |].
  split; [reflexivity |].
  split; [reflexivity |].
  intros (H & _). vm_compute in H. discriminate H.
Qed.

(** Both branches of the probe selection, on the two declared runtimes. *)
Example probe_quarkus :
  healthCheckProbeType (C := Toy.cluster) Toy.runtimeA = QuarkusHealthCheckProbe.
Proof. reflexivity. Qed.

Example probe_other :
  healthCheckProbeType (C := Toy.cluster) Toy.runtimeB = TCPHealthCheckProbe.
Proof. reflexivity. Qed.

(** A delete notification for the key (runtimeA, ns1) enqueues nothing,
    and an update of an object that is being torn down neither. *)
Example delete_suppressed :
  triggers pred (OnDelete (mkDeleteEvent (mkObjectMeta "runtimeA" "ns1" None) false))
  = false.
Proof. reflexivity. Qed.

Example terminating_update_suppressed :
  triggers pred
    (OnUpdate (mkUpdateEvent (mkObjectMeta "runtimeA" "ns1" None)
                             (mkObjectMeta "runtimeA" "ns1" (Some (mkTime 1600000000 0)))))
  = false.
Proof. reflexivity. Qed.

(** ** Further runs on the small cluster *)

Lemma Reconcile_success_runs_all_witness :
  pass_err (Toy.run Toy.reqA Toy.fresh) = None
  /\ calls (pass_trace (Toy.run Toy.reqA Toy.fresh))
     = plan (C := Toy.cluster) Toy.reqA Toy.runtimeA
  /\ Forall (fun a => action_err a = None)
            (steps (pass_trace (Toy.run Toy.reqA Toy.fresh))).
Proof.
  split; [reflexivity |].
  exact (Reconcile_success_runs_all (C := Toy.cluster) Toy.reqA Toy.fresh Toy.fresh
           Toy.runtimeA eq_refl eq_refl).
Defined.

Lemma Reconcile_error_provenance_witness :
  pass_err (Toy.run Toy.reqA Toy.roleDenied) = Some "forbidden"
  /\ exists before ev after,
      pass_trace (Toy.run Toy.reqA Toy.roleDenied) = before ++ ev :: after
      /\ action_err (action ev) = Some "forbidden"
      /\ Forall (fun ev' => action_err (action ev') = None) before
      /\ Forall (fun ev' => is_log ev' = true) after.
Proof.
  split; [reflexivity |].
  exact (Reconcile_error_provenance (C := Toy.cluster) Toy.reqA Toy.roleDenied
           "forbidden" eq_refl).
Defined.

Lemma Reconcile_nonpositive_duration_witness :
  let p := Reconcile (C := Toy.hasty) Toy.reqA Toy.fresh in
  action Toy.hastyDeployEventA
  = ADeploy (C := Toy.hasty)
      (serviceDefinition (C := Toy.hasty) Toy.reqA Toy.runtimeA) Toy.runtimeA
      (-1, None)
  /\ pass_result p = zeroResult
  /\ pass_err p = None
  /\ last (pass_trace p) Toy.hastyDeployEventA = Toy.hastyDeployEventA.
Proof.
  split; [reflexivity |].
  assert (Hin : In Toy.hastyDeployEventA
                   (pass_trace (Reconcile (C := Toy.hasty) Toy.reqA Toy.fresh)))
    by (do 6 right; left; reflexivity).
  assert (Hneg : -1 <= 0) by lia.
  exact (Reconcile_nonpositive_duration (C := Toy.hasty) Toy.reqA Toy.fresh
           Toy.hastyDeployEventA
           (serviceDefinition (C := Toy.hasty) Toy.reqA Toy.runtimeA)
           Toy.runtimeA (-1) Hin eq_refl Hneg).
Defined.

Lemma Reconcile_delegate_last_witness :
  In Toy.deployEventA (pass_trace (Toy.run Toy.reqA Toy.fresh))
  /\ steps (pass_trace (Toy.run Toy.reqA Toy.fresh))
     = [AFetch (C := Toy.cluster) "runtimeA" "ns1" (Some Toy.runtimeA, None);
        ACreateIfNotExists (C := Toy.cluster) "role/ns1" None;
        ACreateIfNotExists (C := Toy.cluster) "serviceaccount/ns1" None;
        ACreateIfNotExists (C := Toy.cluster) "rolebinding/ns1" None;
        AMount (C := Toy.cluster) Toy.runtimeA None;
        ADeploy (C := Toy.cluster)
          (serviceDefinition (C := Toy.cluster) Toy.reqA Toy.runtimeA)
          Toy.runtimeA (Toy.thirtySeconds, None)].
Proof.
  assert (Hin : In Toy.deployEventA (pass_trace (Toy.run Toy.reqA Toy.fresh)))
    by (do 6 right; left; reflexivity).
  split; [exact Hin |].
  exact (proj1 (Reconcile_delegate_last (C := Toy.cluster) Toy.reqA Toy.fresh
                  Toy.deployEventA
                  (serviceDefinition (C := Toy.cluster) Toy.reqA Toy.runtimeA)
                  Toy.runtimeA (Toy.thirtySeconds, None) Hin eq_refl)).
Defined.

Lemma Reconcile_logged_error_returned_witness :
  action Toy.roleDeniedLogA
  = ALog (C := Toy.cluster) LError (Some "forbidden")
         "Fail to create role for service viewer" []
  /\ Some "forbidden" = pass_err (Toy.run Toy.reqA Toy.roleDenied).
Proof.
  split; [reflexivity |].
  assert (Hin : In Toy.roleDeniedLogA (pass_trace (Toy.run Toy.reqA Toy.roleDenied)))
    by (do 3 right; left; reflexivity).
  exact (proj1 (Reconcile_logged_error_returned (C := Toy.cluster) Toy.reqA
                  Toy.roleDenied Toy.roleDeniedLogA (Some "forbidden")
                  "Fail to create role for service viewer" [] Hin eq_refl)).
Defined.


Lemma Reconcile_many_witness :
  let w1 := pass_world (Toy.run Toy.reqA Toy.fresh) in
  pass_err (Toy.run Toy.reqA Toy.fresh) = None
  /\ reconcile_n (C := Toy.cluster) Toy.reqA 3 w1 = w1
  /\ pass_err (Toy.run Toy.reqA (reconcile_n (C := Toy.cluster) Toy.reqA 3 w1)) = None
  /\ Forall noop
       (pass_trace (Toy.run Toy.reqA (reconcile_n (C := Toy.cluster) Toy.reqA 3 w1))).
Proof.
  split; [reflexivity |].
  exact (Reconcile_many (C := Toy.cluster) Toy.reqA Toy.fresh 3
           ToyFacts.contract eq_refl).
Defined.

Lemma Reconcile_twice_same_calls_witness :
  pass_err (Toy.run Toy.reqA Toy.fresh) = None
  /\ calls (pass_trace (Toy.run Toy.reqA (pass_world (Toy.run Toy.reqA Toy.fresh))))
     = calls (pass_trace (Toy.run Toy.reqA Toy.fresh)).
Proof.
  split; [reflexivity |].
  exact (Reconcile_twice_same_calls (C := Toy.cluster) Toy.reqA Toy.fresh
           ToyFacts.contract eq_refl).
Defined.
